(** * MedAI backend ([app.py]): a shallow embedding of the request handlers

    The Flask handlers of [app.py] are embedded as functions in a small
    state-and-exception monad.  The state records what a handler does to the
    outside world (calls to the generative-language provider, log lines);
    exceptions are Python exceptions, caught by the handler's
    [try ... except Exception] exactly where the source catches them. *)

From Stdlib Require Import List NArith ZArith String Ascii Bool Lia.
From Stdlib Require Import Floats.PrimFloat.
Import ListNotations.

#[local] Set Warnings "-inexact-float,-register-all".

(* ====================================================================== *)
(** ** Python values *)
(* ====================================================================== *)

Module Py.

(** A Python [str] is a sequence of Unicode code points. *)
Definition char := N.
Definition pystr := list char.

(** An ASCII literal of the source, as a [pystr]. *)
Definition lit (s : string) : pystr :=
  List.map N_of_ascii (list_ascii_of_string s).

Definition nl : pystr := [10%N].

Fixpoint pystr_eqb (a b : pystr) : bool :=
  match a, b with
  | [], [] => true
  | x :: a', y :: b' => N.eqb x y && pystr_eqb a' b'
  | _, _ => false
  end.

(** [str.isspace] on one code point: the white-space table of CPython 3
    ([_PyUnicode_IsWhitespace]); [str.strip()] removes exactly these. *)
Definition isspace (c : char) : bool :=
  ((9 <=? c) && (c <=? 13) || (28 <=? c) && (c <=? 32)
   || (c =? 133) || (c =? 160) || (c =? 5760)
   || (8192 <=? c) && (c <=? 8202)
   || (c =? 8232) || (c =? 8233) || (c =? 8239) || (c =? 8287)
   || (c =? 12288))%N.

Fixpoint lstrip (s : pystr) : pystr :=
  match s with
  | c :: s' => if isspace c then lstrip s' else s
  | [] => []
  end.

Definition rstrip (s : pystr) : pystr := rev (lstrip (rev s)).

(** [s.strip()] *)
Definition strip (s : pystr) : pystr := rstrip (lstrip s).

(** [s[:n]] *)
Definition slice_to (n : nat) (s : pystr) : pystr := firstn n s.

(** The values [json.loads] produces, which are also the values handed to
    [jsonify].  A [dict] is kept as its items in insertion order, keys
    pairwise distinct. *)
Inductive value : Type :=
| PNone
| PBool (b : bool)
| PInt (z : Z)
| PFloat (f : float)
| PStr (s : pystr)
| PList (l : list value)
| PDict (items : list (pystr * value)).

(** [bool(v)]; [not v] is its negation. *)
Definition truthy (v : value) : bool :=
  match v with
  | PNone => false
  | PBool b => b
  | PInt z => negb (z =? 0)%Z
  | PFloat f => negb (PrimFloat.eqb f 0)
  | PStr s => match s with [] => false | _ => true end
  | PList l => match l with [] => false | _ => true end
  | PDict d => match d with [] => false | _ => true end
  end.

(** [type(v).__name__] *)
Definition type_name (v : value) : pystr :=
  match v with
  | PNone => lit "NoneType"
  | PBool _ => lit "bool"
  | PInt _ => lit "int"
  | PFloat _ => lit "float"
  | PStr _ => lit "str"
  | PList _ => lit "list"
  | PDict _ => lit "dict"
  end.

Fixpoint lookup (k : pystr) (d : list (pystr * value)) : option value :=
  match d with
  | [] => None
  | (k', v) :: d' => if pystr_eqb k k' then Some v else lookup k d'
  end.

(** Exceptions derived from [Exception]: the class name and [str(e)]. *)
Record exn : Type := Exn { exn_class : string; exn_str : pystr }.

(** The [AttributeError] of [v.attr] when [type(v)] has no such attribute. *)
Definition attribute_error (v : value) (attr : string) : exn :=
  Exn "AttributeError"
      (lit "'" ++ type_name v ++ lit "' object has no attribute '"
           ++ lit attr ++ lit "'").

Inductive outcome (A : Type) : Type :=
| Ret (a : A)
| Raise (e : exn).
Arguments Ret {A} a.
Arguments Raise {A} e.

(** [d.get(k, default)]: only a [dict] has the method among JSON values. *)
Definition get (d : value) (k : pystr) (default : value) : outcome value :=
  match d with
  | PDict items =>
      Ret (match lookup k items with Some v => v | None => default end)
  | _ => Raise (attribute_error d "get")
  end.

(** [v.strip()]: only a [str] has the method among JSON values. *)
Definition strip_method (v : value) : outcome pystr :=
  match v with
  | PStr s => Ret (strip s)
  | _ => Raise (attribute_error v "strip")
  end.

End Py.
Export Py.

(* ====================================================================== *)
(** ** The outside world and the handler monad *)
(* ====================================================================== *)

(** [genai.types.GenerationConfig(max_output_tokens=..., temperature=...)] *)
Record generation_config : Type :=
  GenerationConfig { max_output_tokens : Z; temperature : float }.

(** One call [model.generate_content(prompt, generation_config=...)]. *)
Record provider_call : Type :=
  ProviderCall { prompt : pystr; config : generation_config }.

(** What [generate_content] hands back when it returns.  [Reply t] is a
    response object whose [text] attribute is the string [t]; [t = None]
    when the attribute is absent or [None].  [TextRaises e] is a response
    object whose [text] accessor raises [e], an exception other than
    [AttributeError] (the [ValueError] of a blocked or empty answer).
    [FalsyReply] is a return value that tests false.  A call that itself
    raises is the [Raise] outcome of [generate]. *)
Inductive provider_reply : Type :=
| FalsyReply
| Reply (text : option pystr)
| TextRaises (e : exn).

(** A [genai.GenerativeModel]: its name and the provider behind it. *)
Record Model : Type :=
  { model_name : pystr;
    generate : provider_call -> outcome provider_reply }.

Inductive level : Type := INFO | WARNING | ERROR.

(** Everything a handler can change: the calls made to the provider and the
    lines written to the logger, oldest first. *)
Record world : Type :=
  World { calls : list provider_call; log : list (level * pystr) }.

Definition M (A : Type) : Type := world -> outcome A * world.

Definition ret {A} (a : A) : M A := fun w => (Ret a, w).

Definition raise {A} (e : exn) : M A := fun w => (Raise e, w).

Definition bind {A B} (m : M A) (k : A -> M B) : M B :=
  fun w =>
    match m w with
    | (Ret a, w') => k a w'
    | (Raise e, w') => (Raise e, w')
    end.

(** [try: m  except Exception as e: h e] *)
Definition try_except {A} (m : M A) (h : exn -> M A) : M A :=
  fun w =>
    match m w with
    | (Ret a, w') => (Ret a, w')
    | (Raise e, w') => h e w'
    end.

(** A pure computation that may raise. *)
Definition lift {A} (o : outcome A) : M A := fun w => (o, w).

Definition logger (l : level) (msg : pystr) : M unit :=
  fun w => (Ret tt, World (calls w) (log w ++ [(l, msg)])).

(** [m.generate_content(p, generation_config=c)]: the call reaches the
    provider (and is recorded) whether or not it then raises. *)
Definition generate_content (m : Model) (p : pystr) (c : generation_config)
  : M provider_reply :=
  fun w =>
    (generate m (ProviderCall p c),
     World (calls w ++ [ProviderCall p c]) (log w)).

Declare Scope handler_scope.
Delimit Scope handler_scope with handler.
Notation "x <- m ;; k" := (bind m (fun x => k))
  (at level 100, m at next level, right associativity) : handler_scope.
Notation "m ;; k" := (bind m (fun _ => k))
  (at level 100, right associativity) : handler_scope.
Open Scope handler_scope.

(* ====================================================================== *)
(** ** Flask: requests and responses *)
(* ====================================================================== *)

Inductive http_method : Type := GET | POST | OPTIONS.

(** What the request carries where [request.get_json()] looks for JSON. *)
Inductive json_body : Type :=
| NoJson                        (* the content type is not JSON *)
| BadJson (description : pystr) (* JSON content type, body does not decode
                                   (an absent body included) *)
| Json (v : value)              (* JSON content type, body decodes to [v] *)
| DecoderRaises (e : exn).      (* JSON content type, the decoder raises an
                                   exception that is not a [ValueError]
                                   ([RecursionError] on a body nested too
                                   deeply) *)

Record request : Type := Request { method : http_method; body : json_body }.

(** [Request.get_json()] is Flask's, not the application's; it is called
    with its defaults ([force=False], [silent=False]).  A body that does not
    decode raises [BadRequest] in every release; an exception of the decoder
    that is not a [ValueError] passes through as it is.  Without a JSON content
    type, Werkzeug before 2.1 returns [None] and later releases raise
    ([BadRequest] in 2.1 and 2.2, [UnsupportedMediaType] from 2.3 on). *)
Inductive flask_release : Type :=
| ReturnsNone
| RaisesOnNoJson (e : exn).

(** [str(e)] of a werkzeug [HTTPException] is "code name: description". *)
Definition bad_request (description : pystr) : exn :=
  Exn "BadRequest" (lit "400 Bad Request: " ++ description).

Definition unsupported_media_type : exn :=
  Exn "UnsupportedMediaType"
      (lit "415 Unsupported Media Type: Did not attempt to load JSON data because the request Content-Type was not 'application/json'.").

Definition current_flask : flask_release :=
  RaisesOnNoJson unsupported_media_type.

Definition get_json (fl : flask_release) (r : request) : outcome value :=
  match body r with
  | Json v => Ret v
  | BadJson description => Raise (bad_request description)
  | DecoderRaises e => Raise e
  | NoJson =>
      match fl with
      | ReturnsNone => Ret PNone
      | RaisesOnNoJson e => Raise e
      end
  end.

(** A view's result: the status code, the value given to [jsonify], and the
    headers the view adds to the response, in order. *)
Record response : Type :=
  Response { status : Z; json : value; headers : list (pystr * pystr) }.

(** [jsonify({...})], with nothing added to its headers yet. *)
Definition jsonify (items : list (pystr * value)) (code : Z) : response :=
  Response code (PDict items) [].

(** [for k, v in hs.items(): result.headers.add(k, v)] *)
Definition add_headers (hs : list (pystr * pystr)) (r : response) : response :=
  Response (status r) (json r) (headers r ++ hs).

(* ====================================================================== *)
(** ** The application *)
(* ====================================================================== *)

Module App.

(** *** Model set-up at import time *)

Definition model_names : list pystr :=
  [lit "gemini-2.0-flash-exp"; lit "gemini-1.5-pro";
   lit "gemini-1.5-flash"; lit "gemini-pro"].

(** The [for model_name in [...]] loop; [new_model] stands for
    [genai.GenerativeModel], which returns a model or raises. *)
Fixpoint try_models (new_model : pystr -> outcome Model)
         (names : list pystr) : M (option Model) :=
  match names with
  | [] => ret None
  | model_name :: rest =>
      logger INFO (lit "Trying model: " ++ model_name) ;;
      match new_model model_name with
      | Ret m =>
          logger INFO ([9989%N] ++ lit " Successfully initialized model: "
                                ++ model_name) ;;
          ret (Some m)
      | Raise e =>
          logger WARNING (lit "Model " ++ model_name
                              ++ lit " not available: "
                              ++ slice_to 100 (exn_str e)) ;;
          try_models new_model rest
      end
  end.

Definition select_model (new_model : pystr -> outcome Model)
  : M (option Model) :=
  try_except
    (model <- try_models new_model model_names ;;
     match model with
     | Some _ => ret model
     | None =>
         logger ERROR ([10060%N] ++ lit " No available models found.") ;;
         ret model
     end)
    (fun e =>
       logger ERROR (lit "Error initializing model: " ++ exn_str e) ;;
       ret None).

(** The module-level [model] after start-up with an empty log. *)
Definition startup_model (new_model : pystr -> outcome Model)
  : option Model :=
  match fst (select_model new_model (World [] [])) with
  | Ret m => m
  | Raise _ => None
  end.

(** What a request handler reads from the process and its surroundings:
    the Flask release serving it, the module-level [model], and the
    clock's [datetime.now().isoformat()]. *)
Record env : Type :=
  Env { flask : flask_release; model : option Model; now : pystr }.

(** *** [/api/ai-doctor] *)

Definition en_dash : pystr := [8211%N].
Definition warning_sign : pystr := [9888%N; 65039%N].
Definition left_quote : pystr := [8220%N].
Definition right_quote : pystr := [8221%N].

Definition system_prompt : pystr :=
  lit "You are MedAI Pro, an AI health assistant. Provide CONCISE, PRACTICAL advice." ++ nl
  ++ nl
  ++ lit "Response Format:" ++ nl
  ++ lit "1. **Symptoms Analysis**: 2" ++ en_dash ++ lit "3 lines about likely cause." ++ nl
  ++ lit "2. **Possible Causes**: 2" ++ en_dash ++ lit "3 bullet points." ++ nl
  ++ lit "3. **Home Care**: 2" ++ en_dash ++ lit "3 remedies." ++ nl
  ++ lit "4. **Medicines**: Include examples (Paracetamol, Ibuprofen, etc.)." ++ nl
  ++ lit "5. **When to See Doctor**: When to seek professional help." ++ nl
  ++ nl
  ++ warning_sign ++ lit " Keep total response <150 words. Always end with: "
  ++ left_quote ++ warning_sign
  ++ lit " This is NOT professional medical advice." ++ right_quote.

Definition cors_headers : list (pystr * pystr) :=
  [(lit "Access-Control-Allow-Origin", lit "https://iitianshreyash01.github.io");
   (lit "Access-Control-Allow-Headers", lit "Content-Type");
   (lit "Access-Control-Allow-Methods", lit "GET,POST,OPTIONS")].

(** [f"{system_prompt}\n\nUser Symptom: {user_input}"] *)
Definition full_message (user_input : pystr) : pystr :=
  system_prompt ++ nl ++ nl ++ lit "User Symptom: " ++ user_input.

Definition generation_budget : generation_config :=
  GenerationConfig 500 0.7.

(** Whether a reply has a text that tests true. *)
Definition has_text (r : provider_reply) : bool :=
  match r with
  | FalsyReply => false
  | Reply None => false
  | Reply (Some t) => truthy (PStr t)
  | TextRaises _ => false
  end.

(** [response and getattr(response, "text", None)], as a test: [text] is
    read only when the response tests true, the default covers a missing
    attribute, and any other exception of the accessor is raised. *)
Definition test_text (r : provider_reply) : outcome bool :=
  match r with
  | TextRaises e => Raise e
  | _ => Ret (has_text r)
  end.

(** [response.text], read once the test above has passed. *)
Definition text_of (r : provider_reply) : pystr :=
  match r with
  | Reply (Some t) => t
  | _ => []
  end.

Definition ai_doctor (E : env) (r : request) : M response :=
  match method r with
  | OPTIONS =>
      ret (add_headers cors_headers
             (jsonify [(lit "status", PStr (lit "CORS preflight OK"))] 200))
  | _ =>
      let response_headers := cors_headers in
      try_except
        (data <- lift (get_json (flask E) r) ;;
         if negb (truthy data) then
           ret (jsonify [(lit "error", PStr (lit "No JSON data provided"))] 400)
         else
           message <- lift (get data (lit "message") (PStr [])) ;;
           user_input <- lift (strip_method message) ;;
           if negb (truthy (PStr user_input)) then
             ret (jsonify [(lit "error", PStr (lit "Message cannot be empty"))] 400)
           else
             match model E with
             | None =>
                 ret (jsonify [(lit "error", PStr (lit "AI model not initialized."));
                               (lit "success", PBool false)] 500)
             | Some m =>
                 logger INFO (lit "Processing query: "
                                  ++ slice_to 60 user_input ++ lit "...") ;;
                 reply <- generate_content m (full_message user_input)
                                           generation_budget ;;
                 has_text <- lift (test_text reply) ;;
                 let result :=
                   if has_text then
                     jsonify [(lit "success", PBool true);
                              (lit "response", PStr (text_of reply));
                              (lit "timestamp", PStr (now E))] 200
                   else
                     jsonify [(lit "success", PBool false);
                              (lit "error", PStr (lit "Empty response from AI model."))] 200
                 in
                 ret (add_headers response_headers result)
             end)
        (fun e =>
           logger ERROR (lit "Error in ai_doctor endpoint: " ++ exn_str e) ;;
           ret (add_headers response_headers
                  (jsonify [(lit "error",
                             PStr (lit "Server error: " ++ slice_to 100 (exn_str e)));
                            (lit "success", PBool false)] 500)))
  end.

(** *** [/api/specialists] *)

Definition specialist (id : Z) (name specialty : string) (rating : float)
  : value :=
  PDict [(lit "id", PInt id); (lit "name", PStr (lit name));
         (lit "specialty", PStr (lit specialty));
         (lit "rating", PFloat rating)].

Definition specialists : list value :=
  [specialist 1 "Dr. Rajesh Kumar" "Cardiology" 4.8;
   specialist 2 "Dr. Priya Sharma" "Dermatology" 4.7;
   specialist 3 "Dr. Amit Patel" "Neurology" 4.9;
   specialist 4 "Dr. Anjali Singh" "Pediatrics" 4.6;
   specialist 5 "Dr. Vikram Gupta" "Orthopedics" 4.8].

Definition get_specialists (E : env) (r : request) : M response :=
  ret (jsonify [(lit "success", PBool true);
                (lit "specialists", PList specialists)] 200).

End App.
Import App.

(* ====================================================================== *)
(** ** Reading responses *)
(* ====================================================================== *)

(** The member [k] of a response's JSON object. *)
Definition field (k : string) (r : response) : option value :=
  match json r with
  | PDict items => lookup (lit k) items
  | _ => None
  end.

(** A [POST] whose JSON body decodes to the object with the items [d]. *)
Definition post_object (d : list (pystr * value)) : request :=
  Request POST (Json (PDict d)).

(** The fixed text in front of the user's input in [full_message]. *)
Definition prompt_prefix : pystr :=
  system_prompt ++ nl ++ nl ++ lit "User Symptom: ".

(** A provider that answers every call with the same text, one that fails
    every call, a start-up at which every model name is refused, and an
    environment and world to run requests in. *)
Definition sample_reply : provider_reply :=
  Reply (Some (lit "Rest and drink water.")).

Definition sample_model : Model :=
  {| model_name := lit "gemini-pro"; generate := fun _ => Ret sample_reply |}.

Definition quota_error : exn :=
  Exn "ResourceExhausted" (lit "429 Quota exceeded").

Definition failing_model : Model :=
  {| model_name := lit "gemini-pro"; generate := fun _ => Raise quota_error |}.

Definition refuse_all (name : pystr) : outcome Model :=
  Raise (Exn "NotFound" (lit "404 model not found")).

Definition sample_env : env :=
  Env current_flask (Some sample_model) (lit "2025-01-01T00:00:00").

Definition failing_env : env :=
  Env current_flask (Some failing_model) (lit "2025-01-01T00:00:00").

(** A provider that fails every call with a message of 120 characters. *)
Definition verbose_error : exn :=
  Exn "ResourceExhausted"
      (lit "429 Resource has been exhausted (e.g. check quota). Please retry later, or lower the number of requests sent per minute.").

Definition verbose_model : Model :=
  {| model_name := lit "gemini-pro";
     generate := fun _ => Raise verbose_error |}.

Definition verbose_env : env :=
  Env current_flask (Some verbose_model) (lit "2025-01-01T00:00:00").

(** A provider whose call returns a response that has no text to read: the
    accessor raises. *)
Definition blocked_error : exn :=
  Exn "ValueError" (lit "Invalid operation: the response holds no valid Part.").

Definition blocked_model : Model :=
  {| model_name := lit "gemini-pro";
     generate := fun _ => Ret (TextRaises blocked_error) |}.

Definition blocked_env : env :=
  Env current_flask (Some blocked_model) (lit "2025-01-01T00:00:00").

(** A start-up at which every name is refused with that long message. *)
Definition refuse_verbosely (name : pystr) : outcome Model :=
  Raise verbose_error.

Definition cold_env : env :=
  Env current_flask (startup_model refuse_all) (lit "2025-01-01T00:00:00").

Definition world0 : world := World [] [].

(** Bodies [{"message": "   "}], [{"message": "  fever "}] and
    [{"message": 5}]. *)
Definition blank_items : list (pystr * value) :=
  [(lit "message", PStr (lit "   "))].

Definition fever_items : list (pystr * value) :=
  [(lit "message", PStr (lit "  fever "))].

Definition number_items : list (pystr * value) :=
  [(lit "message", PInt 5)].

(** A reply whose [text] can be read without an exception. *)
Definition readable (r : provider_reply) : bool :=
  match r with
  | TextRaises _ => false
  | _ => true
  end.

(** The provider call a request with stripped message [user_input] makes. *)
Definition call_for (user_input : pystr) : provider_call :=
  ProviderCall (full_message user_input) generation_budget.

(** The reply of the [except Exception as e] branch. *)
Definition server_error (e : exn) : response :=
  Response 500
    (PDict [(lit "error",
             PStr (lit "Server error: " ++ slice_to 100 (exn_str e)));
            (lit "success", PBool false)])
    cors_headers.

Definition error_line (e : exn) : level * pystr :=
  (ERROR, lit "Error in ai_doctor endpoint: " ++ exn_str e).

Definition info_line (user_input : pystr) : level * pystr :=
  (INFO, lit "Processing query: " ++ slice_to 60 user_input ++ lit "...").

(** The reply after a provider call that returned. *)
Definition answer (E : env) (reply : provider_reply) : response :=
  Response 200
    (if has_text reply then
       PDict [(lit "success", PBool true);
              (lit "response", PStr (text_of reply));
              (lit "timestamp", PStr (now E))]
     else
       PDict [(lit "success", PBool false);
              (lit "error", PStr (lit "Empty response from AI model."))])
    cors_headers.

(** A specialist record: an integer identifier, a name, a specialty and a
    floating-point rating, in that order, the rating between the doubles
    [4.6] and [4.9]. *)
Definition specialist_record (v : value) : Prop :=
  exists (id : Z) (name specialty : pystr) (rating : float),
    v = PDict [(lit "id", PInt id); (lit "name", PStr name);
               (lit "specialty", PStr specialty);
               (lit "rating", PFloat rating)]
    /\ PrimFloat.leb 4.6 rating = true
    /\ PrimFloat.leb rating 4.9 = true.

(* ====================================================================== *)
(** ** The rest of the application *)
(* ====================================================================== *)

Module Views.

(** *** The API key at import time *)

(** [GEMINI_API_KEY = os.getenv("GEMINI_API_KEY")] is [None] when the
    variable is unset and a string, possibly empty, when it is set.  The
    result of the step is the key handed to [genai.configure], if any. *)
Definition configure_api (api_key : option pystr) : M (option pystr) :=
  match api_key with
  | Some (c :: k) =>
      logger INFO ([9989%N] ++ lit " Gemini API configured successfully") ;;
      ret (Some (c :: k))
  | _ =>
      logger ERROR (lit "GEMINI_API_KEY not found in environment variables") ;;
      ret None
  end.

(** *** [/api/health] *)

(** [getattr(model, "model_name", default)]: a [Model] always carries the
    attribute, so the read returns it. *)
Definition getattr_model_name (m : Model) (default : pystr) : outcome pystr :=
  Ret (model_name m).

Definition health_check (api_key : option pystr) (E : env) (r : request)
  : M response :=
  let model_name :=
    match model E with
    | Some m =>
        match getattr_model_name m (lit "Initialized") with
        | Ret name => name
        | Raise _ => lit "Initialized"
        end
    | None => lit "Unknown"
    end in
  ret (jsonify [(lit "status", PStr (lit "ok"));
                (lit "timestamp", PStr (now E));
                (lit "gemini_configured",
                 PBool (match api_key with Some _ => true | None => false end));
                (lit "model", PStr model_name)] 200).

(** *** [/api/health-tips] *)

Definition tips : list value :=
  [PStr (lit "Stay hydrated - at least 8 glasses of water daily.");
   PStr (lit "Exercise regularly for 30 minutes a day.");
   PStr (lit "Sleep 7" ++ en_dash ++ lit "9 hours every night.");
   PStr (lit "Eat fruits and vegetables daily.");
   PStr (lit "Practice stress management (yoga, breathing).")].

Definition get_health_tips (E : env) (r : request) : M response :=
  ret (jsonify [(lit "success", PBool true); (lit "tips", PList tips)] 200).

End Views.
Import Views.

(* ====================================================================== *)
(** ** Describing runs *)
(* ====================================================================== *)

(** The three replies [ai_doctor] returns from inside the [try] before it
    reaches the provider. *)
Definition no_data_reply : response :=
  Response 400 (PDict [(lit "error", PStr (lit "No JSON data provided"))]) [].

Definition empty_message_reply : response :=
  Response 400 (PDict [(lit "error", PStr (lit "Message cannot be empty"))]) [].

Definition no_model_reply : response :=
  Response 500
    (PDict [(lit "error", PStr (lit "AI model not initialized."));
            (lit "success", PBool false)])
    [].

(** The runs of [ai_doctor] on a [POST] with the body [b], from the world
    [w]: the three early returns, an exception caught before the provider
    is reached, and the two ways a provider call can end, which is made for
    the stripped [message] of a JSON object when that is not empty and there
    is a model. *)
Inductive post_run (E : env) (b : json_body) (w : world)
  : outcome response * world -> Prop :=
| RunNoData :
    post_run E b w (Ret no_data_reply, w)
| RunEmptyMessage :
    post_run E b w (Ret empty_message_reply, w)
| RunNoModel :
    model E = None ->
    post_run E b w (Ret no_model_reply, w)
| RunRejected (e : exn) :
    post_run E b w (Ret (server_error e),
                    World (calls w) (log w ++ [error_line e]))
| RunAnswered (m : Model) (d : list (pystr * value)) (s : pystr)
              (reply : provider_reply) :
    b = Json (PDict d) ->
    lookup (lit "message") d = Some (PStr s) ->
    strip s <> [] ->
    model E = Some m ->
    generate m (call_for (strip s)) = Ret reply ->
    readable reply = true ->
    post_run E b w (Ret (answer E reply),
                    World (calls w ++ [call_for (strip s)])
                          (log w ++ [info_line (strip s)]))
| RunFailed (m : Model) (d : list (pystr * value)) (s : pystr) (e : exn) :
    b = Json (PDict d) ->
    lookup (lit "message") d = Some (PStr s) ->
    strip s <> [] ->
    model E = Some m ->
    generate m (call_for (strip s)) = Raise e
    \/ generate m (call_for (strip s)) = Ret (TextRaises e) ->
    post_run E b w (Ret (server_error e),
                    World (calls w ++ [call_for (strip s)])
                          (log w ++ [info_line (strip s); error_line e])).

(** The lines one pass of the start-up loop writes for the name [n]. *)
Definition attempt_lines (new_model : pystr -> outcome Model) (n : pystr)
  : list (level * pystr) :=
  (INFO, lit "Trying model: " ++ n)
  :: match new_model n with
     | Ret _ =>
         [(INFO, [9989%N] ++ lit " Successfully initialized model: " ++ n)]
     | Raise e =>
         [(WARNING, lit "Model " ++ n ++ lit " not available: "
                        ++ slice_to 100 (exn_str e))]
     end.

Definition no_models_line : level * pystr :=
  (ERROR, [10060%N] ++ lit " No available models found.").

(** Bodies [{"text": "fever"}] and [{"user": 7, "message": "fever"}]. *)
Definition text_items : list (pystr * value) :=
  [(lit "text", PStr (lit "fever"))].

Definition user_items : list (pystr * value) :=
  [(lit "user", PInt 7); (lit "message", PStr (lit "fever"))].

Definition flash_model : Model :=
  {| model_name := lit "models/gemini-1.5-flash";
     generate := fun _ => Ret sample_reply |}.

(** A constructor that accepts the third name of the list only. *)
Definition only_flash (name : pystr) : outcome Model :=
  if pystr_eqb name (lit "gemini-1.5-flash") then
    Ret flash_model
  else Raise (Exn "NotFound" (lit "404 model not found")).

(* ====================================================================== *)
(** ** Strings *)
(* ====================================================================== *)

Section Strings.

Lemma slice_to_length (n : nat) (s : pystr) :
  List.length (slice_to n s) <= n.
Proof. unfold slice_to. rewrite length_firstn. lia. Qed.

Lemma slice_to_prefix (n : nat) (s : pystr) :
  exists rest, s = slice_to n s ++ rest.
Proof. exists (skipn n s). unfold slice_to. now rewrite firstn_skipn. Qed.

Lemma has_text_iff (r : provider_reply) :
  has_text r = true <-> text_of r <> [].
Proof.
  destruct r as [|[t|]|e]; simpl; try (split; congruence).
  destruct t; simpl; split; congruence.
Qed.

Lemma forallb_isspace_rev (l : pystr) :
  forallb isspace l = true -> forallb isspace (rev l) = true.
Proof.
  rewrite !forallb_forall. intros H c Hc. apply H. now apply in_rev.
Qed.

(** [lstrip] drops a run of white space at the front and nothing else. *)
Lemma lstrip_spec (s : pystr) :
  exists l, s = l ++ lstrip s /\ forallb isspace l = true.
Proof.
  induction s as [|c s [l [Hs Hl]]]; [now exists []|].
  simpl. destruct (isspace c) eqn:Hc; [|now exists []].
  exists (c :: l). simpl. rewrite Hc, Hl. now rewrite <- Hs.
Qed.

Lemma rstrip_spec (s : pystr) :
  exists r, s = rstrip s ++ r /\ forallb isspace r = true.
Proof.
  destruct (lstrip_spec (rev s)) as [l [Hs Hl]].
  exists (rev l). split; [|now apply forallb_isspace_rev].
  unfold rstrip. rewrite <- rev_app_distr, <- Hs. now rewrite rev_involutive.
Qed.

(** [strip] removes white space at both ends and keeps the rest as it is. *)
Lemma strip_spec (s : pystr) :
  exists l r, s = l ++ strip s ++ r
              /\ forallb isspace l = true /\ forallb isspace r = true.
Proof.
  destruct (lstrip_spec s) as [l [Hs Hl]].
  destruct (rstrip_spec (lstrip s)) as [r [Ht Hr]].
  exists l, r. unfold strip. now rewrite <- Ht, <- Hs.
Qed.

Lemma lstrip_all_space (s : pystr) :
  forallb isspace s = true -> lstrip s = [].
Proof.
  induction s as [|c s IH]; simpl; [reflexivity|].
  destruct (isspace c); simpl; [exact IH | discriminate].
Qed.

(** A string strips to nothing exactly when it is empty or all white space. *)
Lemma strip_nil_iff (s : pystr) :
  strip s = [] <-> forallb isspace s = true.
Proof.
  split.
  - intros H. destruct (strip_spec s) as [l [r [Hs [Hl Hr]]]].
    rewrite H in Hs. rewrite Hs. simpl. rewrite forallb_app, Hl, Hr.
    reflexivity.
  - intros H. unfold strip. now rewrite (lstrip_all_space _ H).
Qed.

Lemma lstrip_length (s : pystr) : List.length (lstrip s) <= List.length s.
Proof.
  induction s as [|c s IH]; simpl; [lia|].
  destruct (isspace c); simpl; lia.
Qed.

Lemma lstrip_fixed_head (c : char) (s : pystr) :
  lstrip (c :: s) = c :: s -> isspace c = false.
Proof.
  simpl. destruct (isspace c); [|reflexivity].
  intros H. pose proof (lstrip_length s) as L. rewrite H in L. simpl in L. lia.
Qed.

Lemma lstrip_idempotent (s : pystr) : lstrip (lstrip s) = lstrip s.
Proof.
  induction s as [|c s IH]; simpl; [reflexivity|].
  destruct (isspace c) eqn:Hc; [exact IH|]. simpl. now rewrite Hc.
Qed.

Lemma rstrip_idempotent (s : pystr) : rstrip (rstrip s) = rstrip s.
Proof.
  unfold rstrip. now rewrite rev_involutive, lstrip_idempotent.
Qed.

(** Stripping the right end leaves a stripped left end stripped. *)
Lemma lstrip_rstrip (s : pystr) :
  lstrip s = s -> lstrip (rstrip s) = rstrip s.
Proof.
  intros H. destruct (rstrip_spec s) as [r [Hs _]].
  destruct (rstrip s) as [|c p] eqn:Hp; [reflexivity|].
  rewrite Hs in H. simpl in H. apply lstrip_fixed_head in H.
  simpl. now rewrite H.
Qed.

Lemma strip_idempotent (s : pystr) : strip (strip s) = strip s.
Proof.
  unfold strip.
  rewrite (lstrip_rstrip (lstrip s) (lstrip_idempotent s)).
  apply rstrip_idempotent.
Qed.

(** What [strip] returns neither begins nor ends with white space. *)
Lemma strip_first (s : pystr) :
  strip s <> [] -> isspace (hd 32%N (strip s)) = false.
Proof.
  intros Hn.
  assert (H : lstrip (strip s) = strip s)
    by (unfold strip; apply lstrip_rstrip, lstrip_idempotent).
  destruct (strip s) as [|c t]; [congruence|].
  exact (lstrip_fixed_head c t H).
Qed.

Lemma strip_last (s : pystr) :
  strip s <> [] -> isspace (last (strip s) 32%N) = false.
Proof.
  unfold strip, rstrip. intros Hn.
  pose proof (lstrip_idempotent (rev (lstrip s))) as H.
  destruct (lstrip (rev (lstrip s))) as [|c z]; [now elim Hn|].
  cbn [rev]. rewrite last_last. exact (lstrip_fixed_head c z H).
Qed.

End Strings.

(* ====================================================================== *)
(** ** The paths through [ai_doctor] *)
(* ====================================================================== *)

Section Paths.

Variable E : env.
Variable w : world.

Lemma path_preflight (b : json_body) :
  ai_doctor E (Request OPTIONS b) w =
  (Ret (Response 200 (PDict [(lit "status", PStr (lit "CORS preflight OK"))])
                 cors_headers), w).
Proof. reflexivity. Qed.

Lemma path_get_json_raises (b : json_body) (e : exn) :
  get_json (flask E) (Request POST b) = Raise e ->
  ai_doctor E (Request POST b) w =
  (Ret (server_error e), World (calls w) (log w ++ [error_line e])).
Proof.
  intros H. unfold ai_doctor, try_except, bind, lift; simpl method.
  rewrite H. reflexivity.
Qed.

Lemma path_no_data (b : json_body) (data : value) :
  get_json (flask E) (Request POST b) = Ret data ->
  truthy data = false ->
  ai_doctor E (Request POST b) w =
  (Ret (Response 400 (PDict [(lit "error", PStr (lit "No JSON data provided"))]) []),
   w).
Proof.
  intros H T. unfold ai_doctor, try_except, bind, lift; simpl method.
  rewrite H, T. reflexivity.
Qed.

Lemma path_not_object (data : value) :
  truthy data = true ->
  (forall d, data <> PDict d) ->
  ai_doctor E (Request POST (Json data)) w =
  (Ret (server_error (attribute_error data "get")),
   World (calls w) (log w ++ [error_line (attribute_error data "get")])).
Proof.
  intros Ht Hd.
  unfold ai_doctor, try_except, bind, lift, get_json. cbn [method body].
  rewrite Ht. cbn [negb].
  destruct data; try (now elim (Hd items)); reflexivity.
Qed.

Lemma path_no_message (d : list (pystr * value)) :
  d <> [] ->
  lookup (lit "message") d = None ->
  ai_doctor E (post_object d) w = (Ret empty_message_reply, w).
Proof.
  intros Hd Hm.
  unfold ai_doctor, post_object, try_except, bind, lift, get_json, get.
  cbn [method body]. destruct d as [|item items]; [congruence|].
  cbn [truthy negb]. rewrite Hm. reflexivity.
Qed.

(** From here on the body is a JSON object holding a [message]. *)

Variable d : list (pystr * value).
Variable v : value.
Hypothesis Hmessage : lookup (lit "message") d = Some v.

Ltac enter_try :=
  unfold ai_doctor, post_object, try_except, bind, lift, get_json, get;
  cbn [method body];
  destruct d as [|item items] eqn:Hd;
  [discriminate Hmessage|];
  cbn [truthy negb]; rewrite Hmessage.

Lemma path_bad_message :
  (forall s, v <> PStr s) ->
  ai_doctor E (post_object d) w =
  (Ret (server_error (attribute_error v "strip")),
   World (calls w) (log w ++ [error_line (attribute_error v "strip")])).
Proof.
  intros Hv. enter_try.
  destruct v; try reflexivity. now elim (Hv s).
Qed.

Lemma path_empty_message (s : pystr) :
  v = PStr s -> strip s = [] ->
  ai_doctor E (post_object d) w =
  (Ret (Response 400 (PDict [(lit "error", PStr (lit "Message cannot be empty"))]) []),
   w).
Proof.
  intros Hv Hs. enter_try. rewrite Hv. cbn [strip_method]. rewrite Hs.
  reflexivity.
Qed.

Lemma path_no_model (s : pystr) :
  v = PStr s -> strip s <> [] -> model E = None ->
  ai_doctor E (post_object d) w =
  (Ret (Response 500
                 (PDict [(lit "error", PStr (lit "AI model not initialized."));
                         (lit "success", PBool false)])
                 []),
   w).
Proof.
  intros Hv Hs Hm. enter_try. rewrite Hv. cbn [strip_method].
  destruct (strip s) as [|c t] eqn:Hst; [congruence|].
  cbn [truthy negb]. rewrite Hm. reflexivity.
Qed.

Lemma path_provider_returns (s : pystr) (m : Model) (reply : provider_reply) :
  v = PStr s -> strip s <> [] -> model E = Some m ->
  generate m (call_for (strip s)) = Ret reply ->
  readable reply = true ->
  ai_doctor E (post_object d) w =
  (Ret (answer E reply),
   World (calls w ++ [call_for (strip s)]) (log w ++ [info_line (strip s)])).
Proof.
  intros Hv Hs Hm Hg Hr. enter_try. rewrite Hv. cbn [strip_method].
  destruct (strip s) as [|c t] eqn:Hst; [congruence|].
  cbn [truthy negb]. rewrite Hm.
  unfold generate_content, logger, call_for in *. cbn [calls log].
  rewrite Hg. unfold answer.
  destruct reply as [|[t'|]|e]; [| | |discriminate Hr]; cbn [test_text];
    destruct (has_text _); reflexivity.
Qed.

Lemma path_provider_raises (s : pystr) (m : Model) (e : exn) :
  v = PStr s -> strip s <> [] -> model E = Some m ->
  generate m (call_for (strip s)) = Raise e ->
  ai_doctor E (post_object d) w =
  (Ret (server_error e),
   World (calls w ++ [call_for (strip s)])
         (log w ++ [info_line (strip s); error_line e])).
Proof.
  intros Hv Hs Hm Hg. enter_try. rewrite Hv. cbn [strip_method].
  destruct (strip s) as [|c t] eqn:Hst; [congruence|].
  cbn [truthy negb]. rewrite Hm.
  unfold generate_content, logger, call_for in *. cbn [calls log].
  rewrite Hg. cbn [calls log]. rewrite <- app_assoc. reflexivity.
Qed.

Lemma path_text_raises (s : pystr) (m : Model) (e : exn) :
  v = PStr s -> strip s <> [] -> model E = Some m ->
  generate m (call_for (strip s)) = Ret (TextRaises e) ->
  ai_doctor E (post_object d) w =
  (Ret (server_error e),
   World (calls w ++ [call_for (strip s)])
         (log w ++ [info_line (strip s); error_line e])).
Proof.
  intros Hv Hs Hm Hg. enter_try. rewrite Hv. cbn [strip_method].
  destruct (strip s) as [|c t] eqn:Hst; [congruence|].
  cbn [truthy negb]. rewrite Hm.
  unfold generate_content, logger, call_for in *. cbn [calls log].
  rewrite Hg. cbn [test_text calls log]. rewrite <- app_assoc. reflexivity.
Qed.

End Paths.

(* ====================================================================== *)
(** ** Start-up *)
(* ====================================================================== *)

Section Startup.

Variable new_model : pystr -> outcome Model.

(** The loop never raises, and ends without a model exactly when every
    name it tried was refused. *)
Lemma try_models_none (names : list pystr) (w : world) :
  fst (try_models new_model names w) = Ret None
  <-> (forall n, In n names -> exists e, new_model n = Raise e).
Proof.
  revert w. induction names as [|n names IH]; intros w.
  - simpl. split; [intros _ n []|reflexivity].
  - cbn [try_models]. unfold bind, logger.
    destruct (new_model n) as [m|e] eqn:Hn.
    + cbn. split; [discriminate|].
      intros H. destruct (H n (or_introl eq_refl)) as [e He]. congruence.
    + cbn -[try_models]. rewrite IH. split.
      * intros H n' [<-|Hin]; [now exists e | now apply H].
      * intros H n' Hin. apply H. now right.
Qed.

Lemma try_models_returns (names : list pystr) (w : world) :
  exists m w', try_models new_model names w = (Ret m, w').
Proof.
  revert w. induction names as [|n names IH]; intros w.
  - now exists None, w.
  - cbn [try_models]. unfold bind, logger.
    destruct (new_model n) as [m|e]; cbn -[try_models].
    + now eexists _, _.
    + apply IH.
Qed.

Lemma startup_model_none :
  startup_model new_model = None
  <-> (forall n, In n model_names -> exists e, new_model n = Raise e).
Proof.
  rewrite <- (try_models_none model_names (World [] [])).
  unfold startup_model, select_model, try_except, bind.
  destruct (try_models_returns model_names (World [] [])) as [m [w' H]].
  rewrite H. destruct m; cbn; split; congruence.
Qed.

End Startup.

(* ====================================================================== *)
(** ** [/api/specialists] *)
(* ====================================================================== *)

(** C8: every call of the specialists endpoint returns HTTP 200 and the same
    fixed list of exactly 5 specialist records, whatever the environment,
    the request and the world, and changes nothing; each record has an
    identifier, a name, a specialty and a numeric rating, and every rating
    lies in [4.6, 4.9]. *)
Theorem specialists_fixed :
  (forall E r w,
      get_specialists E r w =
      (Ret (Response 200
                     (PDict [(lit "success", PBool true);
                             (lit "specialists", PList specialists)])
                     []),
       w))
  /\ List.length specialists = 5
  /\ Forall specialist_record specialists.
Proof.
  split; [reflexivity|]. split; [reflexivity|].
  unfold specialists.
  repeat (apply Forall_cons;
          [unfold specialist_record, specialist;
           do 4 eexists; repeat split; reflexivity|]).
  apply Forall_nil.
Qed.

(* ====================================================================== *)
(** ** [/api/ai-doctor] *)
(* ====================================================================== *)

(** C1: a [POST] whose body does not decode as JSON is answered with HTTP
    500, not 400: [get_json] raises [BadRequest] inside the [try], and the
    [except Exception] branch turns it into the server-error reply whose
    text quotes the 400.  The same happens to a request without a JSON
    content type wherever [get_json] raises for it.  The provider is not
    called. *)
Theorem undecodable_body_is_500 (E : env) (description : pystr) (w : world) :
  ai_doctor E (Request POST (BadJson description)) w =
  (Ret (Response 500
          (PDict [(lit "error",
                   PStr (lit "Server error: "
                             ++ slice_to 100 (lit "400 Bad Request: " ++ description)));
                  (lit "success", PBool false)])
          cors_headers),
   World (calls w) (log w ++ [error_line (bad_request description)]))
  /\ (forall e : exn,
         ai_doctor (Env (RaisesOnNoJson e) (model E) (now E))
                   (Request POST NoJson) w =
         (Ret (server_error e),
          World (calls w) (log w ++ [error_line e]))).
Proof.
  split.
  - now rewrite (path_get_json_raises E w (BadJson description)
                 (bad_request description) eq_refl).
  - intros e. now apply path_get_json_raises.
Qed.

(** C2: a [POST] whose JSON object has a string [message] that is empty
    after trimming (empty, or white space only) is answered with HTTP 400
    and the error "Message cannot be empty"; the world is left as it was,
    so the provider is not called. *)
Theorem empty_message_is_400 (E : env) (d : list (pystr * value))
        (s : pystr) (w : world) :
  lookup (lit "message") d = Some (PStr s) ->
  strip s = [] ->
  exists resp,
    ai_doctor E (post_object d) w = (Ret resp, w)
    /\ status resp = 400%Z
    /\ field "error" resp = Some (PStr (lit "Message cannot be empty")).
Proof.
  intros Hm Hs. eexists. split.
  - exact (path_empty_message E w d (PStr s) Hm s eq_refl Hs).
  - split; reflexivity.
Qed.

(** C3 (amended): with a model and a message that is not all white space,
    the endpoint makes exactly one provider call; its prompt is the fixed
    system prompt, then the fixed separator (two line feeds and
    "User Symptom: "), then the message with the white space at its two
    ends removed and nothing else changed: the text sent is not empty, its
    first and its last character are not white space, and the message is
    that text between two runs of white space.  The budget is 500 output
    tokens at temperature 0.7. *)
Theorem prompt_sent (E : env) (m : Model) (d : list (pystr * value))
        (s : pystr) (w : world) :
  model E = Some m ->
  lookup (lit "message") d = Some (PStr s) ->
  forallb isspace s = false ->
  exists l u r,
    s = l ++ u ++ r
    /\ forallb isspace l = true /\ forallb isspace r = true
    /\ u <> []
    /\ isspace (hd 32%N u) = false /\ isspace (last u 32%N) = false
    /\ calls (snd (ai_doctor E (post_object d) w)) =
       calls w ++ [ProviderCall
                     (system_prompt ++ nl ++ nl ++ lit "User Symptom: " ++ u)
                     (GenerationConfig 500 0.7)].
Proof.
  intros Hm Hd Hw.
  assert (Hs : strip s <> []).
  { intros H0. apply strip_nil_iff in H0. congruence. }
  destruct (strip_spec s) as [l [r [Hlr [Hl Hr]]]].
  exists l, (strip s), r. split; [exact Hlr|].
  split; [exact Hl|]. split; [exact Hr|]. split; [exact Hs|].
  split; [now apply strip_first|]. split; [now apply strip_last|].
  destruct (generate m (call_for (strip s))) as [reply|e] eqn:Hg.
  - destruct (readable reply) eqn:Hread.
    + now rewrite (path_provider_returns E w d (PStr s) Hd s m reply
                     eq_refl Hs Hm Hg Hread).
    + destruct reply as [| |e]; try discriminate Hread.
      now rewrite (path_text_raises E w d (PStr s) Hd s m e eq_refl Hs Hm Hg).
  - now rewrite (path_provider_raises E w d (PStr s) Hd s m e eq_refl Hs Hm Hg).
Qed.


(** C5: when the provider call raises, the reply is HTTP 500 with
    [success] false and the error "Server error: " followed by the first
    100 characters of the exception's message: a prefix of that message,
    of 100 characters when the message has more, and the whole message
    otherwise. *)
Theorem provider_exception_is_500 (E : env) (m : Model)
        (d : list (pystr * value)) (s : pystr) (w : world) (e : exn) :
  model E = Some m ->
  lookup (lit "message") d = Some (PStr s) ->
  strip s <> [] ->
  generate m (call_for (strip s)) = Raise e ->
  exists resp diagnostic,
    fst (ai_doctor E (post_object d) w) = Ret resp
    /\ status resp = 500%Z
    /\ field "success" resp = Some (PBool false)
    /\ field "error" resp = Some (PStr (lit "Server error: " ++ diagnostic))
    /\ diagnostic = firstn 100 (exn_str e)
    /\ List.length diagnostic = Nat.min 100 (List.length (exn_str e))
    /\ exists rest, exn_str e = diagnostic ++ rest.
Proof.
  intros Hm Hd Hs Hg. exists (server_error e), (firstn 100 (exn_str e)).
  rewrite (path_provider_raises E w d (PStr s) Hd s m e eq_refl Hs Hm Hg).
  repeat split; try reflexivity.
  - apply length_firstn.
  - exists (skipn 100 (exn_str e)). now rewrite firstn_skipn.
Qed.

(** C6: when every model name was refused at start-up, so that no model was
    initialized, a [POST] with a message that is not empty after trimming
    is answered with HTTP 500, [success] false and the error "AI model not
    initialized."; the world is left as it was, so the provider is not
    called. *)
Theorem no_model_is_500 (new_model : pystr -> outcome Model) (E : env)
        (d : list (pystr * value)) (s : pystr) (w : world) :
  (forall n, In n model_names -> exists e, new_model n = Raise e) ->
  model E = startup_model new_model ->
  lookup (lit "message") d = Some (PStr s) ->
  strip s <> [] ->
  exists resp,
    ai_doctor E (post_object d) w = (Ret resp, w)
    /\ status resp = 500%Z
    /\ field "success" resp = Some (PBool false)
    /\ field "error" resp = Some (PStr (lit "AI model not initialized.")).
Proof.
  intros Hall HE Hd Hs. apply startup_model_none in Hall.
  rewrite Hall in HE. eexists. split.
  - exact (path_no_model E w d (PStr s) Hd s eq_refl Hs HE).
  - repeat split.
Qed.

(** C7: an [OPTIONS] request gets HTTP 200 with the fixed body
    [{"status": "CORS preflight OK"}] and the three CORS headers, the same
    for every environment (model or none), body and world; the world is
    left as it was, so the model is not invoked. *)
Theorem preflight_constant (E : env) (b : json_body) (w : world) :
  ai_doctor E (Request OPTIONS b) w =
  (Ret (Response 200
                 (PDict [(lit "status", PStr (lit "CORS preflight OK"))])
                 cors_headers),
   w).
Proof. apply path_preflight. Qed.

(** C9: a [POST] whose JSON object has a [message] that is not a string is
    answered through the [except] branch: HTTP 500, not 400, with [success]
    false and the error text of the [AttributeError] raised by [.strip()];
    the provider is not called. *)
Theorem non_string_message_is_500 (E : env) (d : list (pystr * value))
        (v : value) (w : world) :
  lookup (lit "message") d = Some v ->
  (forall s, v <> PStr s) ->
  exists resp w',
    ai_doctor E (post_object d) w = (Ret resp, w')
    /\ status resp = 500%Z
    /\ status resp <> 400%Z
    /\ field "success" resp = Some (PBool false)
    /\ field "error" resp =
       Some (PStr (lit "Server error: "
                       ++ slice_to 100 (exn_str (attribute_error v "strip"))))
    /\ calls w' = calls w.
Proof.
  intros Hd Hv. eexists _, _. split.
  - exact (path_bad_message E w d v Hd Hv).
  - repeat split. discriminate.
Qed.

(** C10: whenever a [POST] is answered with HTTP 400, the world after the
    request is the world before it: no provider call was made and nothing
    was logged, the two validation steps having returned before the
    provider call is reached. *)
Theorem bad_request_changes_nothing (E : env) (b : json_body) (w w' : world)
        (resp : response) :
  ai_doctor E (Request POST b) w = (Ret resp, w') ->
  status resp = 400%Z ->
  w' = w /\ calls w' = calls w.
Proof.
  intros H Hs.
  enough (w' = w) by (now subst).
  unfold ai_doctor, try_except, bind, lift in H. cbn [method] in H.
  destruct (get_json (flask E) (Request POST b)) as [data|e];
    [|injection H as <- <-; discriminate Hs].
  destruct (truthy data); cbn [negb] in H;
    [|now injection H as <- <-].
  destruct (get data (lit "message") (PStr [])) as [message|e];
    [|injection H as <- <-; discriminate Hs].
  destruct (strip_method message) as [user_input|e];
    [|injection H as <- <-; discriminate Hs].
  destruct (truthy (PStr user_input)); cbn [negb] in H;
    [|now injection H as <- <-].
  destruct (model E) as [m|]; [|now injection H as <- <-].
  unfold logger, generate_content in H. cbn [calls log] in H.
  destruct (generate m _) as [reply|e];
    [|injection H as <- <-; discriminate Hs].
  destruct reply as [|t|e]; cbn [test_text] in H.
  - injection H as <- <-. discriminate Hs.
  - destruct (has_text (Reply t)); injection H as <- <-; discriminate Hs.
  - injection H as <- <-. discriminate Hs.
Qed.

(* ====================================================================== *)
(** ** Concrete runs *)
(* ====================================================================== *)

Lemma full_message_prefix (user_input : pystr) :
  full_message user_input = prompt_prefix ++ user_input.
Proof. unfold full_message, prompt_prefix. now rewrite !app_assoc. Qed.

(** C3, as stated, fails: no fixed template followed by the message as
    sent is what reaches the provider.  For the message "a" the prompt ends
    in "a" right after the separator, which fixes the template; for " a"
    the prompt is the same, the leading blank having been stripped. *)
Lemma message_not_forwarded_verbatim :
  ~ exists template : pystr,
      forall s : pystr,
        strip s <> [] ->
        calls (snd (ai_doctor sample_env
                              (post_object [(lit "message", PStr s)])
                              world0))
        = [ProviderCall (template ++ s) generation_budget].
Proof.
  intros [template H].
  assert (Hrun : forall s, strip s <> [] ->
            calls (snd (ai_doctor sample_env
                                  (post_object [(lit "message", PStr s)])
                                  world0))
            = [call_for (strip s)]).
  { intros s Hs.
    now rewrite (path_provider_returns sample_env world0
                   [(lit "message", PStr s)] (PStr s) eq_refl s
                   sample_model sample_reply eq_refl Hs eq_refl eq_refl). }
  assert (Ha : strip (lit "a") <> []) by (vm_compute; discriminate).
  assert (Hb : strip (lit " a") <> []) by (vm_compute; discriminate).
  pose proof (H _ Ha) as H1. rewrite (Hrun _ Ha) in H1.
  pose proof (H _ Hb) as H2. rewrite (Hrun _ Hb) in H2.
  change (strip (lit "a")) with (lit "a") in H1.
  change (strip (lit " a")) with (lit "a") in H2.
  unfold call_for in H1, H2. rewrite full_message_prefix in H1, H2.
  apply (f_equal (fun l => match l with c :: _ => prompt c | [] => [] end))
    in H1, H2.
  cbv beta iota in H1, H2. cbn [prompt] in H1, H2.
  apply app_inv_tail in H1. subst template.
  apply app_inv_head in H2. discriminate H2.
Qed.

Lemma empty_message_is_400_witness :
  lookup (lit "message") blank_items = Some (PStr (lit "   "))
  /\ strip (lit "   ") = []
  /\ exists resp,
      ai_doctor sample_env (post_object blank_items) world0
      = (Ret resp, world0)
      /\ status resp = 400%Z
      /\ field "error" resp = Some (PStr (lit "Message cannot be empty")).
Proof.
  split; [reflexivity|]. split; [reflexivity|].
  apply (empty_message_is_400 sample_env blank_items (lit "   ") world0);
    reflexivity.
Defined.

Lemma fever_not_blank : strip (lit "  fever ") <> [].
Proof. vm_compute. discriminate. Defined.

Lemma prompt_sent_witness :
  model sample_env = Some sample_model
  /\ lookup (lit "message") fever_items = Some (PStr (lit "  fever "))
  /\ forallb isspace (lit "  fever ") = false
  /\ exists l u r,
      lit "  fever " = l ++ u ++ r
      /\ forallb isspace l = true /\ forallb isspace r = true
      /\ u <> []
      /\ isspace (hd 32%N u) = false /\ isspace (last u 32%N) = false
      /\ calls (snd (ai_doctor sample_env (post_object fever_items) world0)) =
         calls world0
         ++ [ProviderCall
               (system_prompt ++ nl ++ nl ++ lit "User Symptom: " ++ u)
               (GenerationConfig 500 0.7)].
Proof.
  split; [reflexivity|]. split; [reflexivity|]. split; [reflexivity|].
  apply (prompt_sent sample_env sample_model fever_items (lit "  fever ")
                     world0);
    reflexivity.
Defined.



Lemma provider_exception_is_500_witness :
  model verbose_env = Some verbose_model
  /\ lookup (lit "message") fever_items = Some (PStr (lit "  fever "))
  /\ strip (lit "  fever ") <> []
  /\ generate verbose_model (call_for (strip (lit "  fever ")))
     = Raise verbose_error
  /\ exists resp diagnostic,
      fst (ai_doctor verbose_env (post_object fever_items) world0) = Ret resp
      /\ status resp = 500%Z
      /\ field "success" resp = Some (PBool false)
      /\ field "error" resp = Some (PStr (lit "Server error: " ++ diagnostic))
      /\ diagnostic = firstn 100 (exn_str verbose_error)
      /\ List.length diagnostic
         = Nat.min 100 (List.length (exn_str verbose_error))
      /\ exists rest, exn_str verbose_error = diagnostic ++ rest.
Proof.
  split; [reflexivity|]. split; [reflexivity|].
  split; [exact fever_not_blank|]. split; [reflexivity|].
  apply (provider_exception_is_500 verbose_env verbose_model fever_items
                                   (lit "  fever ") world0 verbose_error);
    [reflexivity | reflexivity | exact fever_not_blank | reflexivity].
Defined.

Lemma refuse_all_refuses :
  forall n, In n model_names -> exists e, refuse_all n = Raise e.
Proof. intros n _. eexists. reflexivity. Defined.

Lemma no_model_is_500_witness :
  (forall n, In n model_names -> exists e, refuse_all n = Raise e)
  /\ model cold_env = startup_model refuse_all
  /\ lookup (lit "message") fever_items = Some (PStr (lit "  fever "))
  /\ strip (lit "  fever ") <> []
  /\ exists resp,
      ai_doctor cold_env (post_object fever_items) world0 = (Ret resp, world0)
      /\ status resp = 500%Z
      /\ field "success" resp = Some (PBool false)
      /\ field "error" resp = Some (PStr (lit "AI model not initialized.")).
Proof.
  split; [exact refuse_all_refuses|]. split; [reflexivity|].
  split; [reflexivity|]. split; [exact fever_not_blank|].
  apply (no_model_is_500 refuse_all cold_env fever_items (lit "  fever ")
                         world0);
    [exact refuse_all_refuses | reflexivity | reflexivity
     | exact fever_not_blank].
Defined.

Lemma five_not_str : forall s : pystr, PInt 5 <> PStr s.
Proof. intros s. discriminate. Defined.

Lemma non_string_message_is_500_witness :
  lookup (lit "message") number_items = Some (PInt 5)
  /\ (forall s : pystr, PInt 5 <> PStr s)
  /\ exists resp w',
      ai_doctor sample_env (post_object number_items) world0 = (Ret resp, w')
      /\ status resp = 500%Z
      /\ status resp <> 400%Z
      /\ field "success" resp = Some (PBool false)
      /\ field "error" resp =
         Some (PStr (lit "Server error: "
                         ++ slice_to 100
                              (exn_str (attribute_error (PInt 5) "strip"))))
      /\ calls w' = calls world0.
Proof.
  split; [reflexivity|]. split; [exact five_not_str|].
  apply (non_string_message_is_500 sample_env number_items (PInt 5) world0);
    [reflexivity | exact five_not_str].
Defined.

Lemma bad_request_changes_nothing_witness :
  ai_doctor sample_env (Request POST (Json (PDict blank_items))) world0
  = (Ret (Response 400
                   (PDict [(lit "error", PStr (lit "Message cannot be empty"))])
                   []),
     world0)
  /\ status (Response 400
                      (PDict [(lit "error", PStr (lit "Message cannot be empty"))])
                      [])
     = 400%Z
  /\ world0 = world0 /\ calls world0 = calls world0.
Proof.
  split; [reflexivity|]. split; [reflexivity|].
  apply (bad_request_changes_nothing sample_env (Json (PDict blank_items))
           world0 world0
           (Response 400
                     (PDict [(lit "error", PStr (lit "Message cannot be empty"))])
                     []));
    reflexivity.
Defined.

(** What the sample runs return, by evaluation. *)

Example run_fever :
  ai_doctor sample_env (post_object fever_items) world0 =
  (Ret (Response 200
          (PDict [(lit "success", PBool true);
                  (lit "response", PStr (lit "Rest and drink water."));
                  (lit "timestamp", PStr (lit "2025-01-01T00:00:00"))])
          cors_headers),
   World [ProviderCall (full_message (lit "fever")) generation_budget]
         [(INFO, lit "Processing query: fever...")]).
Proof. reflexivity. Qed.

Example run_verbose_error :
  fst (ai_doctor verbose_env (post_object fever_items) world0) =
  Ret (Response 500
         (PDict [(lit "error",
                  PStr (lit "Server error: 429 Resource has been exhausted (e.g. check quota). Please retry later, or lower the number of reque"));
                 (lit "success", PBool false)])
         cors_headers).
Proof. reflexivity. Qed.

Example run_blocked :
  ai_doctor blocked_env (post_object fever_items) world0 =
  (Ret (Response 500
          (PDict [(lit "error",
                   PStr (lit "Server error: Invalid operation: the response holds no valid Part."));
                  (lit "success", PBool false)])
          cors_headers),
   World [ProviderCall (full_message (lit "fever")) generation_budget]
         [(INFO, lit "Processing query: fever...");
          (ERROR, lit "Error in ai_doctor endpoint: Invalid operation: the response holds no valid Part.")]).
Proof. reflexivity. Qed.

Example run_number :
  fst (ai_doctor sample_env (post_object number_items) world0) =
  Ret (Response 500
         (PDict [(lit "error",
                  PStr (lit "Server error: 'int' object has no attribute 'strip'"));
                 (lit "success", PBool false)])
         cors_headers).
Proof. reflexivity. Qed.

Example run_truncated_json :
  fst (ai_doctor sample_env
         (Request POST (BadJson (lit "Failed to decode JSON object")))
         world0) =
  Ret (Response 500
         (PDict [(lit "error",
                  PStr (lit "Server error: 400 Bad Request: Failed to decode JSON object"));
                 (lit "success", PBool false)])
         cors_headers).
Proof. reflexivity. Qed.

Example run_empty_object :
  ai_doctor sample_env (post_object []) world0 =
  (Ret (Response 400 (PDict [(lit "error", PStr (lit "No JSON data provided"))]) []),
   world0).
Proof. reflexivity. Qed.

Example run_no_content_type_returns_none :
  ai_doctor (Env ReturnsNone (Some sample_model) []) (Request POST NoJson) world0 =
  (Ret (Response 400 (PDict [(lit "error", PStr (lit "No JSON data provided"))]) []),
   world0).
Proof. reflexivity. Qed.

(* ====================================================================== *)
(** ** Every run of [ai_doctor] *)
(* ====================================================================== *)

Lemma ai_doctor_post_run (E : env) (b : json_body) (w : world) :
  post_run E b w (ai_doctor E (Request POST b) w).
Proof.
  destruct (get_json (flask E) (Request POST b)) as [data|e] eqn:Hj;
    [|rewrite (path_get_json_raises E w b e Hj); apply RunRejected].
  destruct (truthy data) eqn:Ht;
    [|rewrite (path_no_data E w b data Hj Ht); apply RunNoData].
  assert (Hb : b = Json data).
  { destruct b as [|description|v|e]; cbn in Hj; try discriminate.
    - destruct (flask E); [injection Hj as <-|]; discriminate.
    - now injection Hj as ->. }
  subst b.
  destruct data as [|bo|z|f|t|l|d];
    try (rewrite (path_not_object E w _ Ht) by (intros d; discriminate);
         apply RunRejected).
  change (Request POST (Json (PDict d))) with (post_object d).
  destruct (lookup (lit "message") d) as [v|] eqn:Hl.
  2: { rewrite (path_no_message E w d) by (try exact Hl; now destruct d).
       apply RunEmptyMessage. }
  destruct v as [|bo|z|f|s|l|d'];
    try (rewrite (path_bad_message E w d _ Hl) by (intros s; discriminate);
         apply RunRejected).
  destruct (strip s) as [|c t] eqn:Hs.
  { rewrite (path_empty_message E w d (PStr s) Hl s eq_refl Hs).
    apply RunEmptyMessage. }
  assert (Hn : strip s <> []) by (rewrite Hs; discriminate).
  clear c t Hs.
  destruct (model E) as [m|] eqn:Hm.
  2: { rewrite (path_no_model E w d (PStr s) Hl s eq_refl Hn Hm).
       now apply RunNoModel. }
  destruct (generate m (call_for (strip s))) as [reply|e] eqn:Hg.
  - destruct (readable reply) eqn:Hr.
    + rewrite (path_provider_returns E w d (PStr s) Hl s m reply
                 eq_refl Hn Hm Hg Hr).
      now apply (RunAnswered E (Json (PDict d)) w m d s reply).
    + destruct reply as [| |e]; try discriminate Hr.
      rewrite (path_text_raises E w d (PStr s) Hl s m e eq_refl Hn Hm Hg).
      apply (RunFailed E (Json (PDict d)) w m d s e); auto.
  - rewrite (path_provider_raises E w d (PStr s) Hl s m e eq_refl Hn Hm Hg).
    apply (RunFailed E (Json (PDict d)) w m d s e); auto.
Qed.

Ltac split_run E b w :=
  generalize (ai_doctor_post_run E b w);
  generalize (ai_doctor E (Request POST b) w);
  let run := fresh "run" in
  let Hrun := fresh "Hrun" in
  intros run Hrun; destruct Hrun.

(** X1: [ai_doctor] never lets an exception escape: whatever the method,
    the body, the model and the provider do, it returns a response, and the
    status of that response is 200, 400 or 500. *)
Theorem ai_doctor_always_replies (E : env) (r : request) (w : world) :
  exists resp w',
    ai_doctor E r w = (Ret resp, w')
    /\ (status resp = 200 \/ status resp = 400 \/ status resp = 500)%Z.
Proof.
  destruct r as [[| |] b].
  - change (ai_doctor E (Request GET b) w)
      with (ai_doctor E (Request POST b) w).
    split_run E b w; eexists _, _; (split; [reflexivity|]); cbn; auto.
  - split_run E b w; eexists _, _; (split; [reflexivity|]); cbn; auto.
  - eexists _, _. split; [apply path_preflight|]. cbn. auto.
Qed.

(** X2: a request makes at most one provider call.  When it makes one, the
    body is a JSON object with a string [message], and the prompt is the
    fixed prefix followed by that message without the white space at its
    two ends: a text that is not empty, whose first and last characters are
    not white space, and which lies in the message between two runs of
    white space.  The budget is the fixed one. *)
Theorem at_most_one_provider_call (E : env) (r : request) (w : world) :
  calls (snd (ai_doctor E r w)) = calls w
  \/ exists d s l u t,
      body r = Json (PDict d)
      /\ lookup (lit "message") d = Some (PStr s)
      /\ s = l ++ u ++ t
      /\ forallb isspace l = true /\ forallb isspace t = true
      /\ u <> []
      /\ isspace (hd 32%N u) = false /\ isspace (last u 32%N) = false
      /\ calls (snd (ai_doctor E r w)) =
         calls w ++ [ProviderCall (prompt_prefix ++ u) generation_budget].
Proof.
  assert (P : forall b,
             calls (snd (ai_doctor E (Request POST b) w)) = calls w
             \/ exists d s l u t,
                 b = Json (PDict d)
                 /\ lookup (lit "message") d = Some (PStr s)
                 /\ s = l ++ u ++ t
                 /\ forallb isspace l = true /\ forallb isspace t = true
                 /\ u <> []
                 /\ isspace (hd 32%N u) = false
                 /\ isspace (last u 32%N) = false
                 /\ calls (snd (ai_doctor E (Request POST b) w)) =
                    calls w ++ [ProviderCall (prompt_prefix ++ u)
                                             generation_budget]).
  { intros b. split_run E b w; cbn [snd calls]; auto;
      right; destruct (strip_spec s) as [l [t [Hs [Hl Ht]]]];
      exists d, s, l, (strip s), t;
      rewrite <- full_message_prefix;
      repeat split; auto using strip_first, strip_last. }
  destruct r as [[| |] b]; [exact (P b) | exact (P b) | now left].
Qed.


(** X4: the shape of every reply to a [POST].  A reply with [success] true
    has status 200, no [error], a non-empty [response] and the timestamp;
    every other reply has a non-empty [error] text and no [response].  A 400
    reply has no [success] member at all; a 500 reply has [success] false. *)
Theorem reply_shapes (E : env) (b : json_body) (w : world) :
  exists resp w',
    ai_doctor E (Request POST b) w = (Ret resp, w')
    /\ (field "success" resp = Some (PBool true) ->
        status resp = 200%Z
        /\ field "error" resp = None
        /\ field "timestamp" resp = Some (PStr (now E))
        /\ exists t, t <> [] /\ field "response" resp = Some (PStr t))
    /\ (field "success" resp <> Some (PBool true) ->
        field "response" resp = None
        /\ exists msg, msg <> [] /\ field "error" resp = Some (PStr msg))
    /\ (status resp = 400%Z -> field "success" resp = None)
    /\ (status resp = 500%Z -> field "success" resp = Some (PBool false)).
Proof.
  assert (Herr : forall e, lit "Server error: " ++ slice_to 100 (exn_str e) <> [])
    by (intros e; cbn; discriminate).
  split_run E b w; eexists _, _; (split; [reflexivity|]).
  1-3: repeat split; try discriminate; try reflexivity;
       eexists; (split; [|reflexivity]); cbn; discriminate.
  2: unfold answer, field; cbn [json status];
     destruct (has_text reply) eqn:Ht; cbn.
  2: { repeat split; try discriminate; try congruence.
       exists (text_of reply). split; [now apply has_text_iff|reflexivity]. }
  2: { repeat split; try discriminate; try congruence.
       eexists; (split; [|reflexivity]); cbn; discriminate. }
  all: repeat split; try discriminate; try reflexivity;
       eexists; (split; [|reflexivity]); apply Herr.
Qed.

(** X5: no reply to a [POST] carries an [error] text longer than 114
    characters: the fixed messages are shorter, and a caught exception
    contributes at most 100 characters after the 14 of "Server error: ". *)
Theorem error_text_bounded (E : env) (b : json_body) (w : world)
        (msg : pystr) :
  (exists resp,
      fst (ai_doctor E (Request POST b) w) = Ret resp
      /\ field "error" resp = Some (PStr msg)) ->
  List.length msg <= 114.
Proof.
  assert (Herr : forall e,
             List.length (lit "Server error: " ++ slice_to 100 (exn_str e))
             <= 114).
  { intros e. rewrite length_app.
    pose proof (slice_to_length 100 (exn_str e)) as L.
    change (List.length (lit "Server error: ")) with 14. lia. }
  intros [resp [Hr Hf]]. revert Hr Hf.
  split_run E b w; cbn [fst]; intros Hr Hf;
    injection Hr as <-.
  1-3: cbn in Hf; injection Hf as <-; cbn; lia.
  2: { unfold answer, field in Hf. cbn [json] in Hf.
       destruct (has_text reply); cbn in Hf; [discriminate|].
       injection Hf as <-. cbn. lia. }
  all: unfold server_error, field in Hf; cbn in Hf; injection Hf as <-;
       apply Herr.
Qed.

(** X6: which replies to a [POST] carry the CORS headers the view adds.
    Every 200 reply carries the three of them; a 400 reply carries none; a
    500 reply carries them unless it is the "AI model not initialized."
    reply, returned when there is no model. *)
Theorem cors_headers_by_status (E : env) (b : json_body) (w : world) :
  exists resp w',
    ai_doctor E (Request POST b) w = (Ret resp, w')
    /\ (status resp = 200%Z -> headers resp = cors_headers)
    /\ (status resp = 400%Z -> headers resp = [])
    /\ (status resp = 500%Z ->
        headers resp = cors_headers
        \/ (model E = None /\ resp = no_model_reply)).
Proof.
  split_run E b w; eexists _, _; (split; [reflexivity|]);
    cbn [status headers no_data_reply empty_message_reply no_model_reply
         server_error answer];
    repeat split; try discriminate; auto.
Qed.

(** X7: a [POST] whose body decodes to a JSON value that tests true but is
    not an object (a non-empty array or string, a non-zero number, [true])
    is answered with HTTP 500: [data.get] raises [AttributeError], which
    the [except] branch reports; the provider is not called. *)
Theorem non_object_body_is_500 (E : env) (v : value) (w : world) :
  truthy v = true ->
  (forall d, v <> PDict d) ->
  ai_doctor E (Request POST (Json v)) w =
  (Ret (Response 500
          (PDict [(lit "error",
                   PStr (lit "Server error: '" ++ type_name v
                             ++ lit "' object has no attribute 'get'"));
                  (lit "success", PBool false)])
          cors_headers),
   World (calls w) (log w ++ [error_line (attribute_error v "get")])).
Proof.
  intros Ht Hd.
  unfold ai_doctor, try_except, bind, lift, get_json. cbn [method body].
  rewrite Ht. cbn [negb].
  destruct v; try (now elim (Hd items)); reflexivity.
Qed.

(** X8: a [POST] whose body decodes to a JSON value that tests false
    ([null], [false], [0], [0.0], an empty string, array or object) is
    answered with HTTP 400 and "No JSON data provided", the empty object
    [{}] included; the world is left as it was. *)
Theorem falsy_body_is_400 (E : env) (v : value) (w : world) :
  truthy v = false ->
  ai_doctor E (Request POST (Json v)) w =
  (Ret (Response 400
                 (PDict [(lit "error", PStr (lit "No JSON data provided"))])
                 []),
   w).
Proof.
  intros Ht. now apply (path_no_data E w (Json v) v).
Qed.

(** X9: a [POST] whose JSON object is not empty but has no [message] member
    is treated as one with an empty message: HTTP 400 and "Message cannot be
    empty"; the world is left as it was. *)
Theorem missing_message_is_400 (E : env) (d : list (pystr * value))
        (w : world) :
  d <> [] ->
  lookup (lit "message") d = None ->
  ai_doctor E (post_object d) w =
  (Ret (Response 400
                 (PDict [(lit "error", PStr (lit "Message cannot be empty"))])
                 []),
   w).
Proof.
  intros Hd Hm.
  unfold ai_doctor, post_object, try_except, bind, lift, get_json, get.
  cbn [method body]. destruct d as [|item items]; [congruence|].
  cbn [truthy negb]. rewrite Hm. reflexivity.
Qed.

(** X10: the handler reads nothing of a JSON object but its [message], and
    nothing of the message but what is left after stripping: two objects
    whose messages strip to the same text get the same reply and change
    the world in the same way, whatever else they hold. *)
Theorem only_stripped_message_matters (E : env)
        (d1 d2 : list (pystr * value)) (s1 s2 : pystr) (w : world) :
  lookup (lit "message") d1 = Some (PStr s1) ->
  lookup (lit "message") d2 = Some (PStr s2) ->
  strip s1 = strip s2 ->
  ai_doctor E (post_object d1) w = ai_doctor E (post_object d2) w.
Proof.
  intros H1 H2 Hs.
  destruct (strip s1) as [|c t] eqn:Hs1.
  - rewrite (path_empty_message E w d1 (PStr s1) H1 s1 eq_refl Hs1).
    now rewrite (path_empty_message E w d2 (PStr s2) H2 s2 eq_refl
                   (eq_sym Hs)).
  - assert (N1 : strip s1 <> []) by (rewrite Hs1; discriminate).
    assert (N2 : strip s2 <> []) by (rewrite <- Hs; discriminate).
    destruct (model E) as [m|] eqn:Hm.
    + destruct (generate m (call_for (strip s1))) as [reply|e] eqn:Hg.
      * destruct (readable reply) eqn:Hr.
        -- rewrite (path_provider_returns E w d1 (PStr s1) H1 s1 m reply
                      eq_refl N1 Hm Hg Hr).
           rewrite Hs1, Hs in Hg.
           rewrite (path_provider_returns E w d2 (PStr s2) H2 s2 m reply
                      eq_refl N2 Hm Hg Hr).
           now rewrite Hs1, Hs.
        -- destruct reply as [| |e]; try discriminate Hr.
           rewrite (path_text_raises E w d1 (PStr s1) H1 s1 m e
                      eq_refl N1 Hm Hg).
           rewrite Hs1, Hs in Hg.
           rewrite (path_text_raises E w d2 (PStr s2) H2 s2 m e
                      eq_refl N2 Hm Hg).
           now rewrite Hs1, Hs.
      * rewrite (path_provider_raises E w d1 (PStr s1) H1 s1 m e
                   eq_refl N1 Hm Hg).
        rewrite Hs1, Hs in Hg.
        rewrite (path_provider_raises E w d2 (PStr s2) H2 s2 m e
                   eq_refl N2 Hm Hg).
        now rewrite Hs1, Hs.
    + rewrite (path_no_model E w d1 (PStr s1) H1 s1 eq_refl N1 Hm).
      now rewrite (path_no_model E w d2 (PStr s2) H2 s2 eq_refl N2 Hm).
Qed.

(* ====================================================================== *)
(** ** More on start-up *)
(* ====================================================================== *)

Section StartupRuns.

Variable new_model : pystr -> outcome Model.

(** Names that are refused are passed over, each leaving its two lines. *)
Lemma try_models_skip (before rest : list pystr) (w : world) :
  (forall k, In k before -> exists e, new_model k = Raise e) ->
  try_models new_model (before ++ rest) w =
  try_models new_model rest
    (World (calls w) (log w ++ flat_map (attempt_lines new_model) before)).
Proof.
  revert w. induction before as [|k before IH]; intros w H.
  - simpl. rewrite app_nil_r. now destruct w.
  - destruct (H k (or_introl eq_refl)) as [e He].
    cbn [app try_models flat_map]. unfold bind, logger, attempt_lines.
    rewrite He. cbn -[try_models lit flat_map].
    rewrite IH by (intros k' Hk; apply H; now right).
    cbn [calls log]. unfold attempt_lines.
    now rewrite <- !app_assoc.
Qed.

(** The loop returns, calls no provider, and only extends the log. *)
Lemma try_models_quiet (names : list pystr) (w : world) :
  exists m lines,
    try_models new_model names w
    = (Ret m, World (calls w) (log w ++ lines)).
Proof.
  revert w. induction names as [|n names IH]; intros w.
  - exists None, []. simpl. rewrite app_nil_r. now destruct w.
  - cbn [try_models]. unfold bind, logger.
    destruct (new_model n) as [m|e]; cbn -[try_models lit].
    + eexists (Some m), _. now rewrite <- app_assoc.
    + match goal with
      | |- context [try_models new_model names ?w0] =>
          destruct (IH w0) as [m [lines H]]; rewrite H
      end.
      cbn [calls log]. eexists m, _.
      now rewrite <- !app_assoc.
Qed.

End StartupRuns.

(** X11: start-up takes the first name of the list that the constructor
    accepts.  The names before it are each tried and refused, leaving an
    INFO and a WARNING line; the accepted name leaves two INFO lines; the
    names after it are never tried, and no provider call is made. *)
Theorem select_model_first_accepted (new_model : pystr -> outcome Model)
        (before after : list pystr) (n : pystr) (m : Model) (w : world) :
  model_names = before ++ n :: after ->
  (forall k, In k before -> exists e, new_model k = Raise e) ->
  new_model n = Ret m ->
  select_model new_model w =
  (Ret (Some m),
   World (calls w)
         (log w ++ flat_map (attempt_lines new_model) (before ++ [n]))).
Proof.
  intros Hn Hb Hm. unfold select_model, try_except, bind. rewrite Hn.
  rewrite (try_models_skip new_model before (n :: after) w Hb).
  cbn [try_models]. unfold bind, logger. rewrite Hm.
  cbn -[lit flat_map]. rewrite flat_map_app. cbn [flat_map].
  assert (Ha : attempt_lines new_model n =
               [(INFO, lit "Trying model: " ++ n);
                (INFO, [9989%N] ++ lit " Successfully initialized model: " ++ n)])
    by (unfold attempt_lines; now rewrite Hm).
  rewrite Ha, app_nil_r. now rewrite <- !app_assoc.
Qed.

(** X12: start-up never raises and never calls the provider.  It ends
    without a model exactly when the constructor refused every name of the
    list.  When the four names are refused, it adds to the log, for each
    name in the order of the list, the INFO line "Trying model: " with the
    name and the WARNING line with the name and the first 100 characters of
    the exception's text, and last the ERROR line "No available models
    found.". *)
Theorem select_model_safe (new_model : pystr -> outcome Model) (w : world) :
  exists model w',
    select_model new_model w = (Ret model, w')
    /\ calls w' = calls w
    /\ (model = None
        <-> forall n, In n model_names -> exists e, new_model n = Raise e)
    /\ (forall e1 e2 e3 e4 : exn,
          new_model (lit "gemini-2.0-flash-exp") = Raise e1 ->
          new_model (lit "gemini-1.5-pro") = Raise e2 ->
          new_model (lit "gemini-1.5-flash") = Raise e3 ->
          new_model (lit "gemini-pro") = Raise e4 ->
          model = None
          /\ log w' =
             log w
             ++ [(INFO, lit "Trying model: gemini-2.0-flash-exp");
                 (WARNING, lit "Model gemini-2.0-flash-exp not available: "
                               ++ firstn 100 (exn_str e1));
                 (INFO, lit "Trying model: gemini-1.5-pro");
                 (WARNING, lit "Model gemini-1.5-pro not available: "
                               ++ firstn 100 (exn_str e2));
                 (INFO, lit "Trying model: gemini-1.5-flash");
                 (WARNING, lit "Model gemini-1.5-flash not available: "
                               ++ firstn 100 (exn_str e3));
                 (INFO, lit "Trying model: gemini-pro");
                 (WARNING, lit "Model gemini-pro not available: "
                               ++ firstn 100 (exn_str e4));
                 (ERROR, [10060%N] ++ lit " No available models found.")]).
Proof.
  assert (Hfour : forall e1 e2 e3 e4 : exn,
             new_model (lit "gemini-2.0-flash-exp") = Raise e1 ->
             new_model (lit "gemini-1.5-pro") = Raise e2 ->
             new_model (lit "gemini-1.5-flash") = Raise e3 ->
             new_model (lit "gemini-pro") = Raise e4 ->
             forall n, In n model_names -> exists e, new_model n = Raise e).
  { intros e1 e2 e3 e4 H1 H2 H3 H4 n [<-|[<-|[<-|[<-|[]]]]]; eauto. }
  pose proof (try_models_none new_model model_names w) as Hnone.
  destruct (try_models_quiet new_model model_names w) as [m [lines H]].
  unfold select_model, try_except, bind. rewrite H in *. cbn [fst] in Hnone.
  destruct m as [m|].
  - eexists (Some m), _. split; [reflexivity|]. split; [reflexivity|].
    split; [rewrite <- Hnone; split; discriminate|].
    intros e1 e2 e3 e4 H1 H2 H3 H4.
    pose proof (proj2 Hnone (Hfour e1 e2 e3 e4 H1 H2 H3 H4)) as Habs.
    discriminate Habs.
  - assert (Hall : forall n, In n model_names ->
                             exists e, new_model n = Raise e)
      by (now apply Hnone).
    pose proof (try_models_skip new_model model_names [] w Hall) as Hs.
    rewrite app_nil_r in Hs. rewrite Hs in H. cbn [try_models ret] in H.
    injection H as H. apply app_inv_head in H. subst lines.
    eexists None, _. split; [reflexivity|]. cbn [calls log].
    split; [reflexivity|]. split; [tauto|].
    intros e1 e2 e3 e4 H1 H2 H3 H4. split; [reflexivity|].
    unfold logger, model_names, attempt_lines. cbn [flat_map].
    rewrite H1, H2, H3, H4. rewrite <- app_assoc. reflexivity.
Qed.

(* ====================================================================== *)
(** ** The API key, [/api/health] and [/api/health-tips] *)
(* ====================================================================== *)

(** X13: the health endpoint always answers 200 with status "ok" and leaves
    the world as it was, model or no model (then the model is "Unknown").
    Its [gemini_configured] is true exactly when the environment variable is
    set, whereas start-up hands the key to [genai.configure] only when it is
    set and not empty: for a variable set to the empty string the endpoint
    reports a configured client that was never configured, and that is the
    only case where the two differ. *)
Theorem gemini_configured_means_set (api_key : option pystr) (E : env)
        (r : request) (w0 w : world) :
  exists resp configured w1,
    configure_api api_key w0 = (Ret configured, w1)
    /\ calls w1 = calls w0
    /\ health_check api_key E r w = (Ret resp, w)
    /\ status resp = 200%Z
    /\ field "status" resp = Some (PStr (lit "ok"))
    /\ field "timestamp" resp = Some (PStr (now E))
    /\ (model E = None -> field "model" resp = Some (PStr (lit "Unknown")))
    /\ (field "gemini_configured" resp = Some (PBool true)
        <-> api_key <> None)
    /\ (configured <> None <-> exists c k, api_key = Some (c :: k))
    /\ (field "gemini_configured" resp = Some (PBool true)
        /\ configured = None
        <-> api_key = Some []).
Proof.
  destruct api_key as [[|c k]|]; eexists _, _, _;
    (split; [reflexivity|]); (split; [reflexivity|]);
    (split; [reflexivity|]); (split; [reflexivity|]);
    (split; [reflexivity|]); (split; [reflexivity|]);
    (split; [intros Hm; unfold health_check, field; cbn [json jsonify];
             rewrite Hm; reflexivity|]);
    cbn.
  all: repeat split; try congruence; try discriminate;
       try (intros [c' [k' H]]; discriminate);
       try (intros [H _]; discriminate);
       try (intros [_ H]; discriminate).
  intros _. now exists c, k.
Qed.

(** X14: the health-tips endpoint returns HTTP 200 with [success] true and
    the same five tips, each a non-empty string, whatever the environment,
    the request and the world, which it leaves as it was. *)
Theorem health_tips_fixed :
  (forall E r w,
      get_health_tips E r w =
      (Ret (Response 200
                     (PDict [(lit "success", PBool true);
                             (lit "tips", PList tips)])
                     []),
       w))
  /\ List.length tips = 5
  /\ Forall (fun v => exists t, v = PStr t /\ t <> []) tips.
Proof.
  split; [reflexivity|]. split; [reflexivity|].
  unfold tips.
  repeat (apply Forall_cons;
          [eexists; split; [reflexivity|cbn; discriminate]|]).
  apply Forall_nil.
Qed.

(* ====================================================================== *)
(** ** More concrete runs *)
(* ====================================================================== *)

Lemma error_text_bounded_witness :
  (exists resp,
      fst (ai_doctor failing_env (Request POST (Json (PDict fever_items)))
                     world0) = Ret resp
      /\ field "error" resp
         = Some (PStr (lit "Server error: 429 Quota exceeded")))
  /\ List.length (lit "Server error: 429 Quota exceeded") <= 114.
Proof.
  assert (H : exists resp,
             fst (ai_doctor failing_env
                            (Request POST (Json (PDict fever_items)))
                            world0) = Ret resp
             /\ field "error" resp
                = Some (PStr (lit "Server error: 429 Quota exceeded")))
    by (eexists; split; reflexivity).
  split; [exact H|].
  exact (error_text_bounded failing_env (Json (PDict fever_items)) world0
           (lit "Server error: 429 Quota exceeded") H).
Defined.

Lemma list_not_dict : forall d, PList [PInt 1] <> PDict d.
Proof. intros d. discriminate. Defined.

Lemma non_object_body_is_500_witness :
  truthy (PList [PInt 1]) = true
  /\ (forall d, PList [PInt 1] <> PDict d)
  /\ ai_doctor sample_env (Request POST (Json (PList [PInt 1]))) world0 =
     (Ret (Response 500
             (PDict [(lit "error",
                      PStr (lit "Server error: '" ++ type_name (PList [PInt 1])
                                ++ lit "' object has no attribute 'get'"));
                     (lit "success", PBool false)])
             cors_headers),
      World (calls world0)
            (log world0
                 ++ [error_line (attribute_error (PList [PInt 1]) "get")])).
Proof.
  split; [reflexivity|]. split; [exact list_not_dict|].
  apply (non_object_body_is_500 sample_env (PList [PInt 1]) world0);
    [reflexivity | exact list_not_dict].
Defined.

Lemma falsy_body_is_400_witness :
  truthy (PDict []) = false
  /\ ai_doctor sample_env (Request POST (Json (PDict []))) world0 =
     (Ret (Response 400
                    (PDict [(lit "error", PStr (lit "No JSON data provided"))])
                    []),
      world0).
Proof.
  split; [reflexivity|].
  apply (falsy_body_is_400 sample_env (PDict []) world0). reflexivity.
Defined.

Lemma text_items_not_empty : text_items <> [].
Proof. discriminate. Defined.

Lemma missing_message_is_400_witness :
  text_items <> []
  /\ lookup (lit "message") text_items = None
  /\ ai_doctor sample_env (post_object text_items) world0 =
     (Ret (Response 400
                    (PDict [(lit "error", PStr (lit "Message cannot be empty"))])
                    []),
      world0).
Proof.
  split; [exact text_items_not_empty|]. split; [reflexivity|].
  apply (missing_message_is_400 sample_env text_items world0);
    [exact text_items_not_empty | reflexivity].
Defined.

Lemma only_stripped_message_matters_witness :
  lookup (lit "message") fever_items = Some (PStr (lit "  fever "))
  /\ lookup (lit "message") user_items = Some (PStr (lit "fever"))
  /\ strip (lit "  fever ") = strip (lit "fever")
  /\ ai_doctor sample_env (post_object fever_items) world0
     = ai_doctor sample_env (post_object user_items) world0.
Proof.
  split; [reflexivity|]. split; [reflexivity|]. split; [reflexivity|].
  apply (only_stripped_message_matters sample_env fever_items user_items
           (lit "  fever ") (lit "fever") world0);
    reflexivity.
Defined.

Lemma first_two_refused :
  forall k, In k [lit "gemini-2.0-flash-exp"; lit "gemini-1.5-pro"] ->
            exists e, only_flash k = Raise e.
Proof.
  intros k [<-|[<-|[]]]; eexists; reflexivity.
Defined.

Lemma select_model_first_accepted_witness :
  model_names
  = [lit "gemini-2.0-flash-exp"; lit "gemini-1.5-pro"]
      ++ lit "gemini-1.5-flash" :: [lit "gemini-pro"]
  /\ (forall k, In k [lit "gemini-2.0-flash-exp"; lit "gemini-1.5-pro"] ->
                exists e, only_flash k = Raise e)
  /\ only_flash (lit "gemini-1.5-flash") = Ret flash_model
  /\ select_model only_flash world0 =
     (Ret (Some flash_model),
      World (calls world0)
            (log world0
                 ++ flat_map (attempt_lines only_flash)
                      ([lit "gemini-2.0-flash-exp"; lit "gemini-1.5-pro"]
                         ++ [lit "gemini-1.5-flash"]))).
Proof.
  split; [reflexivity|]. split; [exact first_two_refused|].
  split; [reflexivity|].
  apply (select_model_first_accepted only_flash
           [lit "gemini-2.0-flash-exp"; lit "gemini-1.5-pro"]
           [lit "gemini-pro"] (lit "gemini-1.5-flash") flash_model world0);
    [reflexivity | exact first_two_refused | reflexivity].
Defined.

(** What the sample start-ups and requests do, by evaluation. *)

Example run_startup_only_flash :
  log (snd (select_model only_flash world0)) =
  [(INFO, lit "Trying model: gemini-2.0-flash-exp");
   (WARNING, lit "Model gemini-2.0-flash-exp not available: 404 model not found");
   (INFO, lit "Trying model: gemini-1.5-pro");
   (WARNING, lit "Model gemini-1.5-pro not available: 404 model not found");
   (INFO, lit "Trying model: gemini-1.5-flash");
   (INFO, [9989%N] ++ lit " Successfully initialized model: gemini-1.5-flash")].
Proof. reflexivity. Qed.

Example run_startup_all_refused :
  log (snd (select_model refuse_verbosely world0)) =
  [(INFO, lit "Trying model: gemini-2.0-flash-exp");
   (WARNING, lit "Model gemini-2.0-flash-exp not available: 429 Resource has been exhausted (e.g. check quota). Please retry later, or lower the number of reque");
   (INFO, lit "Trying model: gemini-1.5-pro");
   (WARNING, lit "Model gemini-1.5-pro not available: 429 Resource has been exhausted (e.g. check quota). Please retry later, or lower the number of reque");
   (INFO, lit "Trying model: gemini-1.5-flash");
   (WARNING, lit "Model gemini-1.5-flash not available: 429 Resource has been exhausted (e.g. check quota). Please retry later, or lower the number of reque");
   (INFO, lit "Trying model: gemini-pro");
   (WARNING, lit "Model gemini-pro not available: 429 Resource has been exhausted (e.g. check quota). Please retry later, or lower the number of reque");
   (ERROR, [10060%N] ++ lit " No available models found.")].
Proof. reflexivity. Qed.

Example run_empty_key :
  configure_api (Some []) world0 =
  (Ret None,
   World [] [(ERROR, lit "GEMINI_API_KEY not found in environment variables")])
  /\ field "gemini_configured"
           match fst (health_check (Some []) cold_env (Request GET NoJson) world0) with
           | Ret resp => resp
           | Raise _ => no_data_reply
           end
     = Some (PBool true).
Proof. split; reflexivity. Qed.

Example run_array_body :
  fst (ai_doctor sample_env (Request POST (Json (PList [PInt 1]))) world0) =
  Ret (Response 500
         (PDict [(lit "error",
                  PStr (lit "Server error: 'list' object has no attribute 'get'"));
                 (lit "success", PBool false)])
         cors_headers).
Proof. reflexivity. Qed.
